(** * TodoList.tsx: the list controller of the Supabase todo list

    A shallow embedding of [src/components/TodoList.tsx].  The component keeps
    three pieces of React state ([tasks], [newTask], [editingId]) and reacts to
    user events with handlers that talk to three outside collaborators: the
    Supabase table "tasks", the toast notifier and the browser's blocking
    [confirm] prompt.

    The handlers are written in a small state-and-output monad: the state is
    the component state together with the outside world, and the output is the
    chronological list of effects a handler run performs (remote calls,
    prompts, toasts).  The outside world is a parameter of the development:
    every theorem holds whatever the backend answers. *)

From Stdlib Require Import List ZArith NArith Bool String Ascii.
Import ListNotations.

Set Implicit Arguments.

(** ** JavaScript strings

    A JavaScript string is a sequence of UTF-16 code units. *)

Module JsString.

Definition t : Type := list N.

(** An ASCII literal as a JavaScript string. *)
Definition lit (s : string) : t := map N_of_ascii (list_ascii_of_string s).

(** ECMAScript [WhiteSpace]: TAB, VT, FF, SP, NBSP, ZWNBSP and the code
    points of Unicode category Zs. *)
Definition isWhiteSpace (c : N) : bool :=
  ((c =? 0x0009) || (c =? 0x000B) || (c =? 0x000C) || (c =? 0x0020)
   || (c =? 0x00A0) || (c =? 0xFEFF) || (c =? 0x1680)
   || ((0x2000 <=? c) && (c <=? 0x200A))
   || (c =? 0x202F) || (c =? 0x205F) || (c =? 0x3000))%N.

(** ECMAScript [LineTerminator]: LF, CR, LS, PS. *)
Definition isLineTerminator (c : N) : bool :=
  ((c =? 0x000A) || (c =? 0x000D) || (c =? 0x2028) || (c =? 0x2029))%N.

(** The code units [String.prototype.trim] strips. *)
Definition isTrimmed (c : N) : bool := isWhiteSpace c || isLineTerminator c.

Fixpoint trimStart (s : t) : t :=
  match s with
  | [] => []
  | c :: r => if isTrimmed c then trimStart r else s
  end.

Definition trimEnd (s : t) : t := rev (trimStart (rev s)).

(** [s.trim()] *)
Definition trim (s : t) : t := trimEnd (trimStart s).

(** ToBoolean on a string: only the empty string is falsy. *)
Definition truthy (s : t) : bool :=
  match s with
  | [] => false
  | _ :: _ => true
  end.

End JsString.

Arguments JsString.lit s : simpl never.

Definition jsstring : Type := JsString.t.

(** ** Data model *)

(** [type Task = { id: number; title: string; desc: string; created_at: string }] *)
Module Task.
Record t : Type := mk {
  id : Z;
  title : jsstring;
  desc : jsstring;
  created_at : jsstring
}.
End Task.

(** The form object held in [newTask]: [{ title: "", desc: "" }]. *)
Module NewTask.
Record t : Type := mk {
  title : jsstring;
  desc : jsstring
}.

(** [{ title: "", desc: "" }] *)
Definition empty : t := {| title := []; desc := [] |}.
End NewTask.

(** ToBoolean on [number | null], returning the number when it is truthy:
    [null] and [0] are falsy, every other integer is truthy. *)
Definition truthy_number (v : option Z) : option Z :=
  match v with
  | None => None
  | Some n => if (n =? 0)%Z then None else Some n
  end.

(** The three [useState] cells of the component. *)
Record State : Type := mkState {
  tasks : list Task.t;
  newTask : NewTask.t;
  editingId : option Z
}.

(** The state on mount: [useState([])], [useState({title: "", desc: ""})],
    [useState(null)]. *)
Definition initialState : State :=
  {| tasks := []; newTask := NewTask.empty; editingId := None |}.

(** The error object of a Supabase response. *)
Record PostgrestError : Type := mkError { message : jsstring }.

(** A Supabase response [{ data, error }]; either component may be [null]. *)
Record Response (A : Type) : Type := mkResponse {
  data : option A;
  error : option PostgrestError
}.

(** The channels of the toast notifier. *)
Inductive Level : Type := Success | Error | Warn | Info.

(** The effects a handler performs on its collaborators. *)
Inductive Event : Type :=
| Select                                   (* .from("tasks").select("*").order("created_at", {ascending: true}) *)
| Update (patch : NewTask.t) (id : Z)      (* .from("tasks").update(patch).eq("id", id) *)
| Insert (row : NewTask.t)                 (* .from("tasks").insert(row).single() *)
| Delete (id : Z)                          (* .from("tasks").delete().eq("id", id) *)
| Confirm (msg : jsstring)                 (* confirm(msg) *)
| Toast (lvl : Level) (msg : jsstring).    (* toast.<lvl>(msg) *)

Definition isRemote (e : Event) : bool :=
  match e with
  | Select | Update _ _ | Insert _ | Delete _ => true
  | Confirm _ | Toast _ _ => false
  end.

Definition isMutation (e : Event) : bool :=
  match e with
  | Update _ _ | Insert _ | Delete _ => true
  | Select | Confirm _ | Toast _ _ => false
  end.

Definition isSelect (e : Event) : bool :=
  match e with
  | Select => true
  | _ => false
  end.

Definition isToast (e : Event) : bool :=
  match e with
  | Toast _ _ => true
  | _ => false
  end.

Definition isToastOn (l : Level) (e : Event) : bool :=
  match e, l with
  | Toast Success _, Success | Toast Error _, Error
  | Toast Warn _, Warn | Toast Info _, Info => true
  | _, _ => false
  end.

(** ** The outside world

    [World] is whatever lies outside the component: the hosted table and the
    user answering the confirmation prompt.  Each operation is one opaque
    round trip that answers and moves the world on. *)

Record Env (World : Type) : Type := mkEnv {
  select_tasks : World -> Response (list Task.t) * World;
  update_task : NewTask.t -> Z -> World -> Response unit * World;
  insert_task : NewTask.t -> World -> Response unit * World;
  delete_task : Z -> World -> Response unit * World;
  window_confirm : jsstring -> World -> bool * World
}.

(** ** The handler monad *)

Record Sys (World : Type) : Type := mkSys {
  comp : State;
  world : World
}.

Record Outcome (World A : Type) : Type := mkOutcome {
  value : A;
  final : Sys World;
  emitted : list Event
}.

Definition M (World A : Type) : Type := Sys World -> Outcome World A.

Definition ret {World A} (a : A) : M World A :=
  fun s => {| value := a; final := s; emitted := [] |}.

Definition bind {World A B} (m : M World A) (f : A -> M World B) : M World B :=
  fun s =>
    let r1 := m s in
    let r2 := f (value r1) (final r1) in
    {| value := value r2; final := final r2;
       emitted := emitted r1 ++ emitted r2 |}.

Declare Scope handler_scope.
Delimit Scope handler_scope with handler.
Notation "x <- m ;; k" := (bind m (fun x => k))
  (at level 61, m at next level, right associativity) : handler_scope.
Notation "m ;; k" := (bind m (fun _ => k))
  (at level 61, right associativity) : handler_scope.
Local Open Scope handler_scope.

Section Controller.

Context {World : Type}.
Variable env : Env World.

(** *** Primitive actions *)

(** Reading the state captured by the handler's closure. *)
Definition getState : M World State :=
  fun s => {| value := comp s; final := s; emitted := [] |}.

Definition setTasks (v : list Task.t) : M World unit :=
  fun s =>
    {| value := tt;
       final := {| comp := {| tasks := v; newTask := newTask (comp s);
                              editingId := editingId (comp s) |};
                   world := world s |};
       emitted := [] |}.

Definition setNewTask (v : NewTask.t) : M World unit :=
  fun s =>
    {| value := tt;
       final := {| comp := {| tasks := tasks (comp s); newTask := v;
                              editingId := editingId (comp s) |};
                   world := world s |};
       emitted := [] |}.

Definition setEditingId (v : option Z) : M World unit :=
  fun s =>
    {| value := tt;
       final := {| comp := {| tasks := tasks (comp s);
                              newTask := newTask (comp s);
                              editingId := v |};
                   world := world s |};
       emitted := [] |}.

(** One round trip to a collaborator: the world answers, the call is
    recorded. *)
Definition call {A} (e : Event) (f : World -> A * World) : M World A :=
  fun s =>
    let (a, w) := f (world s) in
    {| value := a; final := {| comp := comp s; world := w |};
       emitted := [e] |}.

Definition toast (lvl : Level) (msg : jsstring) : M World unit :=
  fun s => {| value := tt; final := s; emitted := [Toast lvl msg] |}.

Definition supabase_select : M World (Response (list Task.t)) :=
  call Select (select_tasks env).

Definition supabase_update (patch : NewTask.t) (id : Z) : M World (Response unit) :=
  call (Update patch id) (update_task env patch id).

Definition supabase_insert (row : NewTask.t) : M World (Response unit) :=
  call (Insert row) (insert_task env row).

Definition supabase_delete (id : Z) : M World (Response unit) :=
  call (Delete id) (delete_task env id).

Definition confirm (msg : jsstring) : M World bool :=
  call (Confirm msg) (window_confirm env msg).

(** *** Messages *)

Definition fetchErrorPrefix : jsstring := JsString.lit "Error fetching tasks: ".
Definition updateErrorPrefix : jsstring := JsString.lit "Error updating task: ".
Definition insertErrorPrefix : jsstring := JsString.lit "Error inserting task: ".
Definition deleteErrorPrefix : jsstring := JsString.lit "Error deleting task: ".
Definition updatedMessage : jsstring := JsString.lit "Task updated successfully!".
Definition addedMessage : jsstring := JsString.lit "Task added successfully!".
Definition confirmMessage : jsstring :=
  JsString.lit "Are you sure you want to delete this task?".
(** U+26A0 U+FE0F, then the text. *)
Definition fillInMessage : jsstring :=
  [0x26A0; 0xFE0F]%N
    ++ JsString.lit " Please fill in both the title and description!".
(** U+1F5D1 (a surrogate pair) U+FE0F, then the text. *)
Definition deletedMessage : jsstring :=
  [0xD83D; 0xDDD1; 0xFE0F]%N ++ JsString.lit " Task deleted successfully!".
(** U+270F U+FE0F, then the text. *)
Definition cancelledMessage : jsstring :=
  [0x270F; 0xFE0F]%N ++ JsString.lit " Edit cancelled".

(** *** Handlers *)

(** [data || []] *)
Definition orEmpty (d : option (list Task.t)) : list Task.t :=
  match d with
  | Some l => l
  | None => []
  end.

(** [fetchData], lines 19-31. *)
Definition fetchData : M World unit :=
  r <- supabase_select ;;
  match error r with
  | Some e => toast Error (fetchErrorPrefix ++ message e)
  | None => setTasks (orEmpty (data r))
  end.

(** [!newTask.title.trim() || !newTask.desc.trim()], line 37. *)
Definition blank (d : NewTask.t) : bool :=
  negb (JsString.truthy (JsString.trim (NewTask.title d)))
  || negb (JsString.truthy (JsString.trim (NewTask.desc d))).

(** The [if (editingId) ... else ...] block of [handleSubmit], lines 42-67.
    The value says whether control falls through to line 69 ([true]) or the
    handler has returned ([false]). *)
Definition mutate (d : NewTask.t) (eid : option Z) : M World bool :=
  match truthy_number eid with
  | Some id =>
      r <- supabase_update
             {| NewTask.title := NewTask.title d;
                NewTask.desc := NewTask.desc d |} id ;;
      match error r with
      | Some e => toast Error (updateErrorPrefix ++ message e) ;; ret false
      | None =>
          toast Success updatedMessage ;;
          setEditingId None ;;
          ret true
      end
  | None =>
      r <- supabase_insert d ;;
      match error r with
      | Some e => toast Error (insertErrorPrefix ++ message e) ;; ret false
      | None => toast Success addedMessage ;; ret true
      end
  end.

(** [handleSubmit], lines 34-71.  [newTask] and [editingId] are the values
    the handler's closure captured; [e.preventDefault()] has no effect on the
    component or its collaborators; [fetchData()] on line 70 is started last
    and is run here to completion. *)
Definition handleSubmit : M World unit :=
  st <- getState ;;
  if blank (newTask st) then toast Warn fillInMessage
  else
    through <- mutate (newTask st) (editingId st) ;;
    if through : bool then
      setNewTask NewTask.empty ;;
      fetchData
    else ret tt.

(** [handleDelete], lines 74-86. *)
Definition handleDelete (id : Z) : M World unit :=
  confirmDelete <- confirm confirmMessage ;;
  if negb confirmDelete then ret tt
  else
    r <- supabase_delete id ;;
    match error r with
    | Some e => toast Error (deleteErrorPrefix ++ message e)
    | None => toast Info deletedMessage ;; fetchData
    end.

(** [handleEdit], lines 89-92. *)
Definition handleEdit (task : Task.t) : M World unit :=
  setNewTask {| NewTask.title := Task.title task;
                NewTask.desc := Task.desc task |} ;;
  setEditingId (Some (Task.id task)).

(** The closure passed as [onClick] to the "Cancel Edit" button,
    lines 147-151.  It exists only in a render that has the button: a click
    on it is [clickCancel] below. *)
Definition cancelEdit : M World unit :=
  setEditingId None ;;
  setNewTask NewTask.empty ;;
  toast Info cancelledMessage.

(** The "Cancel Edit" button is rendered under [editingId && ...],
    line 144. *)
Definition cancelButtonShown (st : State) : bool :=
  match truthy_number (editingId st) with
  | Some _ => true
  | None => false
  end.

(** The label of the submit button, line 141. *)
Definition submitLabel (st : State) : jsstring :=
  match truthy_number (editingId st) with
  | Some _ => JsString.lit "Update Task"
  | None => JsString.lit "Add Task"
  end.

(** The [onChange] of the title input, lines 111-113. *)
Definition onTitleChange (v : jsstring) : M World unit :=
  st <- getState ;;
  setNewTask {| NewTask.title := v; NewTask.desc := NewTask.desc (newTask st) |}.

(** The [onChange] of the description textarea, lines 124-126. *)
Definition onDescChange (v : jsstring) : M World unit :=
  st <- getState ;;
  setNewTask {| NewTask.title := NewTask.title (newTask st); NewTask.desc := v |}.

(** The effect run on mount, lines 94-96. *)
Definition onMount : M World unit := fetchData.

End Controller.

Arguments fetchData {World} env s : simpl never.

(** Clicking "Edit" on the [n]-th rendered task, lines 166-177. *)
Definition clickEdit {World} (n : nat) : M World unit :=
  st <- getState ;;
  match nth_error (tasks st) n with
  | Some task => handleEdit task
  | None => ret tt
  end.

(** Clicking "Delete" on the [n]-th rendered task, lines 166-183. *)
Definition clickDelete {World} (env : Env World) (n : nat) : M World unit :=
  st <- getState ;;
  match nth_error (tasks st) n with
  | Some task => handleDelete env (Task.id task)
  | None => ret tt
  end.

(** Clicking "Cancel Edit", lines 144-156.  The button and its handler are
    rendered under [editingId && ...]: when [editingId] is falsy there is
    nothing to click and nothing happens. *)
Definition clickCancel {World} : M World unit :=
  st <- getState ;;
  if cancelButtonShown st then cancelEdit else ret tt.

(** ** An in-memory table

    A stand-in for the hosted table, used to run the handlers on concrete
    inputs: rows are kept in insertion order, ids and timestamps are handed
    out on insert, and an outage makes every call fail with its message.  The
    user's answer to the confirmation prompt is part of the world. *)

Module Memory.

Record World : Type := mk {
  rows : list Task.t;
  next_id : Z;
  stamp : jsstring;
  outage : option jsstring;
  answer : bool
}.

Definition failed {A} (m : jsstring) : Response A :=
  {| data := None; error := Some {| message := m |} |}.

Definition done : Response unit := {| data := None; error := None |}.

Definition with_rows (w : World) (l : list Task.t) (n : Z) : World :=
  {| rows := l; next_id := n; stamp := stamp w; outage := outage w;
     answer := answer w |}.

Definition select (w : World) : Response (list Task.t) * World :=
  match outage w with
  | Some m => (failed m, w)
  | None => ({| data := Some (rows w); error := None |}, w)
  end.

Definition patch_row (p : NewTask.t) (id : Z) (r : Task.t) : Task.t :=
  if (Task.id r =? id)%Z
  then {| Task.id := Task.id r; Task.title := NewTask.title p;
          Task.desc := NewTask.desc p; Task.created_at := Task.created_at r |}
  else r.

Definition update (p : NewTask.t) (id : Z) (w : World) : Response unit * World :=
  match outage w with
  | Some m => (failed m, w)
  | None => (done, with_rows w (map (patch_row p id) (rows w)) (next_id w))
  end.

Definition insert (p : NewTask.t) (w : World) : Response unit * World :=
  match outage w with
  | Some m => (failed m, w)
  | None =>
      (done,
       with_rows w
         (rows w ++ [{| Task.id := next_id w; Task.title := NewTask.title p;
                        Task.desc := NewTask.desc p;
                        Task.created_at := stamp w |}])
         (next_id w + 1))
  end.

Definition delete (id : Z) (w : World) : Response unit * World :=
  match outage w with
  | Some m => (failed m, w)
  | None =>
      (done,
       with_rows w (filter (fun r => negb (Task.id r =? id)%Z) (rows w))
         (next_id w))
  end.

Definition ask (_ : jsstring) (w : World) : bool * World := (answer w, w).

Definition env : Env World :=
  {| select_tasks := select; update_task := update; insert_task := insert;
     delete_task := delete; window_confirm := ask |}.

End Memory.

(** ** Sample data *)

Module Sample.

Definition lit := JsString.lit.

Definition milk (id : Z) : Task.t :=
  {| Task.id := id; Task.title := lit "Buy milk"; Task.desc := lit "2%";
     Task.created_at := lit "2024-05-01T09:00:00+00:00" |}.

Definition bread : Task.t :=
  {| Task.id := 6; Task.title := lit "Buy bread"; Task.desc := lit "Rye";
     Task.created_at := lit "2024-05-01T09:30:00+00:00" |}.

(** A table holding [l], up and running; the user answers [yes]. *)
Definition table (l : list Task.t) (yes : bool) : Memory.World :=
  {| Memory.rows := l; Memory.next_id := 7;
     Memory.stamp := lit "2024-05-02T08:00:00+00:00";
     Memory.outage := None; Memory.answer := yes |}.

(** The same table during an outage. *)
Definition down (l : list Task.t) (yes : bool) : Memory.World :=
  {| Memory.rows := l; Memory.next_id := 7;
     Memory.stamp := lit "2024-05-02T08:00:00+00:00";
     Memory.outage := Some (lit "network error"); Memory.answer := yes |}.

(** A component showing [shown], with the form holding [t] and [d]. *)
Definition form (shown : list Task.t) (t d : jsstring) (eid : option Z) : State :=
  {| tasks := shown; newTask := {| NewTask.title := t; NewTask.desc := d |};
     editingId := eid |}.

(** The component as mounted in front of world [w]. *)
Definition mounted (w : Memory.World) : Sys Memory.World :=
  {| comp := initialState; world := w |}.

(** The user loads the list, clicks "Edit" on the first task and retypes the
    description. *)
Definition openFirst (d : jsstring) : M Memory.World unit :=
  onMount Memory.env ;;
  clickEdit 0 ;;
  onDescChange d.

End Sample.

(** ** Typing into the form

    Every keystroke fires the [onChange] of the input it lands in, carrying
    the input's whole new value. *)

Inductive Key : Type :=
| TypeTitle (v : jsstring)     (* the title input now reads [v] *)
| TypeDesc (v : jsstring).     (* the description textarea now reads [v] *)

Definition onKey {World} (k : Key) : M World unit :=
  match k with
  | TypeTitle v => onTitleChange v
  | TypeDesc v => onDescChange v
  end.

Fixpoint typing {World} (keys : list Key) : M World unit :=
  match keys with
  | [] => ret tt
  | k :: rest => onKey k ;; typing rest
  end.

(** ** What is on screen

    The part of the rendered tree, lines 98-195, that depends on the state. *)

Module View.

(** One [<li key=...>] of the task list with its two paragraphs. *)
Record Item : Type := mkItem {
  key : Z;
  heading : jsstring;
  body : jsstring
}.

(** The children of the [<ul>]. *)
Inductive Listing : Type :=
| Placeholder (text : jsstring)
| Items (l : list Item).

(** What [{editingId && (<button ...>)}] renders: nothing for [null], the
    text "0" for the number 0, the button otherwise. *)
Inductive Slot : Type := Nothing | ZeroText | CancelEditButton.

Record t : Type := mk {
  titleValue : jsstring;
  descValue : jsstring;
  submitText : jsstring;
  cancel : Slot;
  listing : Listing
}.

End View.

(** The body of [tasks.map], lines 166-190. *)
Definition renderItem (task : Task.t) : View.Item :=
  {| View.key := Task.id task; View.heading := Task.title task;
     View.body := Task.desc task |}.

(** [{editingId && (...)}], lines 144-156. *)
Definition renderCancel (eid : option Z) : View.Slot :=
  match eid with
  | None => View.Nothing
  | Some n => if (n =? 0)%Z then View.ZeroText else View.CancelEditButton
  end.

(** [tasks.length === 0 ? <p>No tasks yet.</p> : tasks.map(...)],
    lines 163-191. *)
Definition renderList (l : list Task.t) : View.Listing :=
  if (List.length l =? 0)%nat
  then View.Placeholder (JsString.lit "No tasks yet.")
  else View.Items (map renderItem l).

Definition render (st : State) : View.t :=
  {| View.titleValue := NewTask.title (newTask st);
     View.descValue := NewTask.desc (newTask st);
     View.submitText := submitLabel st;
     View.cancel := renderCancel (editingId st);
     View.listing := renderList (tasks st) |}.

(** ** A table with scripted faults

    The in-memory table behind a connection that fails on cue: each remote
    call consumes the head of [faults]; [Some m] makes that call fail with
    message [m] and leaves the table alone, [None] (or an exhausted script)
    lets it through. *)

Module Flaky.

Record World : Type := mk {
  table : Memory.World;
  faults : list (option jsstring)
}.

Definition round {A} (f : Memory.World -> Response A * Memory.World)
    (w : World) : Response A * World :=
  match faults w with
  | Some m :: rest => (Memory.failed m, {| table := table w; faults := rest |})
  | None :: rest =>
      let (r, t) := f (table w) in (r, {| table := t; faults := rest |})
  | [] => let (r, t) := f (table w) in (r, {| table := t; faults := [] |})
  end.

Definition ask (msg : jsstring) (w : World) : bool * World :=
  (Memory.answer (table w), w).

Definition env : Env World :=
  {| select_tasks := round Memory.select;
     update_task := fun p id => round (Memory.update p id);
     insert_task := fun p => round (Memory.insert p);
     delete_task := fun id => round (Memory.delete id);
     window_confirm := ask |}.

(** A healthy table holding [l] behind the script [fs]. *)
Definition behind (fs : list (option jsstring)) (l : list Task.t) (yes : bool)
    : World :=
  {| table := Sample.table l yes; faults := fs |}.

End Flaky.

(** ** Tactics *)

Ltac unfold_monad :=
  unfold confirm, supabase_select, supabase_update, supabase_insert,
    supabase_delete, call, toast, setTasks, setNewTask, setEditingId,
    getState, bind, ret in *.

(** Unfold the handlers down to the round trips, keeping [fetchData] folded. *)
Ltac unfold_handlers :=
  unfold clickEdit, clickDelete, clickCancel, onMount, onTitleChange,
    onDescChange, handleSubmit, mutate, handleDelete, handleEdit,
    cancelEdit in *;
  unfold_monad.

Ltac unfold_fetch := unfold fetchData in *; unfold_monad.

(** Name the answer of a round trip and case on it. *)
Ltac answer_of f :=
  match goal with
  | |- context [f ?e ?a ?b ?w] => destruct (f e a b w) as [? ?] eqn:?
  | |- context [f ?e ?a ?w] => destruct (f e a w) as [? ?] eqn:?
  | |- context [f ?e ?w] => destruct (f e w) as [? ?] eqn:?
  end.

(** ** Strings *)

Lemma truthy_false_iff (s : jsstring) : JsString.truthy s = false <-> s = [].
Proof. destruct s; simpl; split; intros H; congruence. Qed.

Lemma truthy_true_iff (s : jsstring) : JsString.truthy s = true <-> s <> [].
Proof. destruct s; simpl; split; intros H; congruence. Qed.

Lemma trimStart_suffix (s : jsstring) :
  exists p, s = p ++ JsString.trimStart s /\ forallb JsString.isTrimmed p = true.
Proof.
  induction s as [|c r [p [E F]]]; simpl.
  - exists []. split; reflexivity.
  - destruct (JsString.isTrimmed c) eqn:W.
    + exists (c :: p). simpl. rewrite W, F. split; [f_equal; exact E | reflexivity].
    + exists []. split; reflexivity.
Qed.

Lemma trimStart_head (s : jsstring) (c : N) (r : jsstring) :
  JsString.trimStart s = c :: r -> JsString.isTrimmed c = false.
Proof.
  induction s as [|a l IH]; simpl; [discriminate|].
  destruct (JsString.isTrimmed a) eqn:W; [exact IH|].
  intros H. injection H as -> _. exact W.
Qed.

(** What is left after [trim] neither starts nor ends with a stripped code
    unit. *)
Lemma trim_ends (s : jsstring) :
  match JsString.trim s with
  | [] => True
  | c :: _ => JsString.isTrimmed c = false
  end
  /\ match rev (JsString.trim s) with
     | [] => True
     | c :: _ => JsString.isTrimmed c = false
     end.
Proof.
  unfold JsString.trim, JsString.trimEnd. rewrite rev_involutive. split.
  - destruct (trimStart_suffix (rev (JsString.trimStart s))) as [p [E F]].
    apply (f_equal (@rev N)) in E. rewrite rev_involutive, rev_app_distr in E.
    destruct (rev (JsString.trimStart (rev (JsString.trimStart s)))) as [|c l] eqn:R;
      [exact I|].
    simpl in E. apply (trimStart_head s (r := l ++ rev p)). exact E.
  - destruct (JsString.trimStart (rev (JsString.trimStart s))) as [|c l] eqn:R;
      [exact I|].
    exact (trimStart_head _ R).
Qed.

Example trim_strips_both_ends :
  JsString.trim ([0x09; 0x20]%N ++ JsString.lit "Buy  milk" ++ [0x0D; 0x0A; 0x3000]%N)
  = JsString.lit "Buy  milk".
Proof. reflexivity. Qed.

Example trim_of_blanks_is_empty :
  JsString.trim [0x20; 0xA0; 0x2028; 0xFEFF]%N = [].
Proof. reflexivity. Qed.

Lemma blank_true_iff (d : NewTask.t) :
  blank d = true <->
  JsString.trim (NewTask.title d) = [] \/ JsString.trim (NewTask.desc d) = [].
Proof.
  unfold blank. rewrite orb_true_iff, !negb_true_iff, !truthy_false_iff. tauto.
Qed.

Lemma blank_false_iff (d : NewTask.t) :
  blank d = false <->
  JsString.trim (NewTask.title d) <> [] /\ JsString.trim (NewTask.desc d) <> [].
Proof.
  unfold blank. rewrite orb_false_iff, !negb_false_iff, !truthy_true_iff. tauto.
Qed.

(** ** refresh *)

(** A refresh issues the select call exactly once, whatever the answer. *)
Lemma fetchData_selects_once {World} (env : Env World) (s : Sys World) :
  filter isSelect (emitted (fetchData env s)) = [Select]
  /\ filter isMutation (emitted (fetchData env s)) = [].
Proof.
  unfold_fetch. answer_of (@select_tasks). simpl.
  destruct (error r); simpl; split; reflexivity.
Qed.

(** A refresh touches neither the form nor the edit target. *)
Lemma fetchData_frame {World} (env : Env World) (s : Sys World) :
  newTask (comp (final (fetchData env s))) = newTask (comp s)
  /\ editingId (comp (final (fetchData env s))) = editingId (comp s).
Proof.
  unfold_fetch. answer_of (@select_tasks). simpl.
  destruct (error r); simpl; split; reflexivity.
Qed.

(** The only notification a refresh can show is an error. *)
Lemma fetchData_no_success_toast {World} (env : Env World) (s : Sys World) :
  existsb (isToastOn Success) (emitted (fetchData env s)) = false.
Proof.
  unfold_fetch. answer_of (@select_tasks). simpl.
  destruct (error r); reflexivity.
Qed.

(** C3. On success [refresh] replaces [tasks] wholesale with the rows the
    backend returned, or with the empty sequence when it returned none; on
    failure it leaves [tasks] (and the rest of the component state) as it was
    and reports the backend's message in one error notification, after a
    single select call. *)
Theorem fetchData_replaces_or_reports {World} (env : Env World)
    (s : Sys World) (r : Response (list Task.t)) (w : World) :
  select_tasks env (world s) = (r, w) ->
  let out := fetchData env s in
  (error r = None ->
     (forall l, data r = Some l -> tasks (comp (final out)) = l)
     /\ (data r = None -> tasks (comp (final out)) = [])
     /\ newTask (comp (final out)) = newTask (comp s)
     /\ editingId (comp (final out)) = editingId (comp s)
     /\ world (final out) = w
     /\ emitted out = [Select])
  /\ (forall e, error r = Some e ->
        tasks (comp (final out)) = tasks (comp s)
        /\ comp (final out) = comp s
        /\ world (final out) = w
        /\ emitted out = [Select; Toast Error (fetchErrorPrefix ++ message e)]
        /\ List.length (filter isToast (emitted out)) = 1
        /\ List.length (filter isSelect (emitted out)) = 1).
Proof.
  intros Hsel out. subst out. unfold_fetch. rewrite Hsel. simpl. split.
  - intros Hok. rewrite Hok. simpl.
    repeat split; try reflexivity.
    + intros l Hl. rewrite Hl. reflexivity.
    + intros Hn. rewrite Hn. reflexivity.
  - intros e He. rewrite He. simpl. repeat split; reflexivity.
Qed.

(** A list of two rows replaces a stale one; during an outage the stale list
    stays and "network error" is reported once. *)
Lemma fetchData_replaces_or_reports_witness :
  tasks (comp (final (fetchData Memory.env
     {| comp := Sample.form [Sample.bread] [] [] None;
        world := Sample.table [Sample.milk 5; Sample.bread] true |})))
  = [Sample.milk 5; Sample.bread]
  /\ emitted (fetchData Memory.env
       {| comp := Sample.form [Sample.bread] [] [] None;
          world := Sample.down [Sample.milk 5; Sample.bread] true |})
     = [Select;
        Toast Error (JsString.lit "Error fetching tasks: network error")].
Proof.
  split.
  - refine (proj1 (proj1 (fetchData_replaces_or_reports Memory.env
       {| comp := Sample.form [Sample.bread] [] [] None;
          world := Sample.table [Sample.milk 5; Sample.bread] true |}
       eq_refl) eq_refl) _ eq_refl).
  - refine (proj1 (proj2 (proj2 (proj2 (proj2 (fetchData_replaces_or_reports
       Memory.env
       {| comp := Sample.form [Sample.bread] [] [] None;
          world := Sample.down [Sample.milk 5; Sample.bread] true |}
       eq_refl) _ eq_refl))))).
Defined.

(** ** submit *)

(** C1. A draft whose title or description is empty after [trim] is rejected:
    [submit] shows one warning and does nothing else.  No remote call is
    issued, and [tasks], the draft fields, [editingId] and the outside world
    are what they were. *)
Theorem submit_blank_draft_only_warns {World} (env : Env World) (s : Sys World) :
  JsString.trim (NewTask.title (newTask (comp s))) = []
  \/ JsString.trim (NewTask.desc (newTask (comp s))) = [] ->
  let out := handleSubmit env s in
  emitted out = [Toast Warn fillInMessage]
  /\ filter isRemote (emitted out) = []
  /\ tasks (comp (final out)) = tasks (comp s)
  /\ newTask (comp (final out)) = newTask (comp s)
  /\ editingId (comp (final out)) = editingId (comp s)
  /\ world (final out) = world s.
Proof.
  intros Hblank out. subst out. apply blank_true_iff in Hblank.
  unfold_handlers. simpl. rewrite Hblank. simpl.
  repeat split; reflexivity.
Qed.

(** A title of blanks and a tab, with a real description, while editing
    task 5. *)
Lemma submit_blank_draft_only_warns_witness :
  let s := {| comp := Sample.form [Sample.milk 5]
                        [0x20; 0x09; 0xA0]%N (JsString.lit "2%") (Some 5%Z);
              world := Sample.table [Sample.milk 5] true |} in
  emitted (handleSubmit Memory.env s) = [Toast Warn fillInMessage]
  /\ final (handleSubmit Memory.env s) = s.
Proof.
  intros s.
  pose proof (submit_blank_draft_only_warns Memory.env s (or_introl eq_refl)) as H.
  split; [exact (proj1 H) | reflexivity].
Defined.

(** The object literal [{ title: newTask.title, desc: newTask.desc }] of
    line 45 carries the same two strings as [newTask] itself. *)
Lemma patch_is_draft (d : NewTask.t) :
  {| NewTask.title := NewTask.title d; NewTask.desc := NewTask.desc d |} = d.
Proof. destruct d; reflexivity. Qed.

(** [handleSubmit] on the update branch, by the answer of the update call. *)
Lemma submit_update_path {World} (env : Env World) (s : Sys World)
    (id : Z) (r : Response unit) (w : World) :
  blank (newTask (comp s)) = false ->
  truthy_number (editingId (comp s)) = Some id ->
  update_task env (newTask (comp s)) id (world s) = (r, w) ->
  handleSubmit env s =
  match error r with
  | Some e =>
      {| value := tt; final := {| comp := comp s; world := w |};
         emitted := [Update (newTask (comp s)) id;
                     Toast Error (updateErrorPrefix ++ message e)] |}
  | None =>
      let o := fetchData env
                 {| comp := {| tasks := tasks (comp s);
                               newTask := NewTask.empty;
                               editingId := None |};
                    world := w |} in
      {| value := value o; final := final o;
         emitted := [Update (newTask (comp s)) id; Toast Success updatedMessage]
                    ++ emitted o |}
  end.
Proof.
  intros Hb Hid Hup. unfold_handlers. cbn. rewrite Hb, Hid. cbn.
  rewrite patch_is_draft, Hup. cbn.
  destruct (error r); cbn; [destruct s|]; reflexivity.
Qed.

(** [handleSubmit] on the insert branch, by the answer of the insert call. *)
Lemma submit_insert_path {World} (env : Env World) (s : Sys World)
    (r : Response unit) (w : World) :
  blank (newTask (comp s)) = false ->
  truthy_number (editingId (comp s)) = None ->
  insert_task env (newTask (comp s)) (world s) = (r, w) ->
  handleSubmit env s =
  match error r with
  | Some e =>
      {| value := tt; final := {| comp := comp s; world := w |};
         emitted := [Insert (newTask (comp s));
                     Toast Error (insertErrorPrefix ++ message e)] |}
  | None =>
      let o := fetchData env
                 {| comp := {| tasks := tasks (comp s);
                               newTask := NewTask.empty;
                               editingId := editingId (comp s) |};
                    world := w |} in
      {| value := value o; final := final o;
         emitted := [Insert (newTask (comp s)); Toast Success addedMessage]
                    ++ emitted o |}
  end.
Proof.
  intros Hb Hid Hin. unfold_handlers. cbn. rewrite Hb, Hid. cbn.
  rewrite Hin. cbn.
  destruct (error r); cbn; [destruct s|]; reflexivity.
Qed.

(** Whatever the backend answers, a submit that passes validation issues one
    mutation call: the update of the edit target when [editingId] is truthy,
    the insert otherwise. *)
Lemma submit_one_mutation {World} (env : Env World) (s : Sys World) :
  blank (newTask (comp s)) = false ->
  filter isMutation (emitted (handleSubmit env s)) =
  match truthy_number (editingId (comp s)) with
  | Some id => [Update (newTask (comp s)) id]
  | None => [Insert (newTask (comp s))]
  end.
Proof.
  intros Hb. destruct (truthy_number (editingId (comp s))) as [id|] eqn:Hid.
  - destruct (update_task env (newTask (comp s)) id (world s)) as [r w] eqn:Hup.
    rewrite (submit_update_path env s Hb Hid Hup).
    destruct (error r); cbn; [reflexivity|].
    rewrite (proj2 (fetchData_selects_once env _)). reflexivity.
  - destruct (insert_task env (newTask (comp s)) (world s)) as [r w] eqn:Hin.
    rewrite (submit_insert_path env s Hb Hid Hin).
    destruct (error r); cbn; [reflexivity|].
    rewrite (proj2 (fetchData_selects_once env _)). reflexivity.
Qed.

(** When [editingId] is a non-zero id the mutation is the update of that id;
    when it is [null] the mutation is the insert. *)
Lemma submit_update_xor_insert {World} (env : Env World) (s : Sys World) :
  blank (newTask (comp s)) = false ->
  (forall id, editingId (comp s) = Some id -> id <> 0%Z ->
     filter isMutation (emitted (handleSubmit env s))
     = [Update (newTask (comp s)) id])
  /\ (editingId (comp s) = None ->
      filter isMutation (emitted (handleSubmit env s))
      = [Insert (newTask (comp s))]).
Proof.
  intros Hb. rewrite (submit_one_mutation env s Hb). split.
  - intros id E Hnz. rewrite E. cbn.
    destruct (Z.eqb_spec id 0); [contradiction | reflexivity].
  - intros E. rewrite E. reflexivity.
Qed.

(** C2, at [editingId = 0].  Task 0 is loaded from the table and opened with
    "Edit", so [editingId] is set to 0; the submit that follows passes
    validation and issues the insert of a new row, not the update of
    task 0, which stays as it was. *)
Theorem submit_editing_id_zero_inserts :
  let s := final (Sample.openFirst (JsString.lit "Whole")
                    (Sample.mounted (Sample.table [Sample.milk 0] true))) in
  let out := handleSubmit Memory.env s in
  editingId (comp s) = Some 0%Z
  /\ blank (newTask (comp s)) = false
  /\ filter isMutation (emitted out)
     = [Insert {| NewTask.title := JsString.lit "Buy milk";
                  NewTask.desc := JsString.lit "Whole" |}]
  /\ Memory.rows (world (final out))
     = [Sample.milk 0;
        {| Task.id := 7; Task.title := JsString.lit "Buy milk";
           Task.desc := JsString.lit "Whole";
           Task.created_at := JsString.lit "2024-05-02T08:00:00+00:00" |}].
Proof. vm_compute. repeat split; reflexivity. Qed.

(** After a successful submit the draft is empty, a success notification was
    shown and one refresh was run; [editingId] is [null] whenever it was
    [null] or a non-zero id before. *)
Lemma submit_success_resets {World} (env : Env World) (s : Sys World) :
  blank (newTask (comp s)) = false ->
  let out := handleSubmit env s in
  (forall id r w,
     truthy_number (editingId (comp s)) = Some id ->
     update_task env (newTask (comp s)) id (world s) = (r, w) ->
     error r = None ->
     existsb (isToastOn Success) (emitted out) = true
     /\ newTask (comp (final out)) = NewTask.empty
     /\ editingId (comp (final out)) = None
     /\ filter isSelect (emitted out) = [Select])
  /\ (forall r w,
        truthy_number (editingId (comp s)) = None ->
        insert_task env (newTask (comp s)) (world s) = (r, w) ->
        error r = None ->
        existsb (isToastOn Success) (emitted out) = true
        /\ newTask (comp (final out)) = NewTask.empty
        /\ editingId (comp (final out)) = editingId (comp s)
        /\ filter isSelect (emitted out) = [Select]).
Proof.
  intros Hb out. subst out. split.
  - intros id r w Hid Hup Hok.
    rewrite (submit_update_path env s Hb Hid Hup), Hok. cbn.
    destruct (fetchData_frame env
      {| comp := {| tasks := tasks (comp s); newTask := NewTask.empty;
                    editingId := None |}; world := w |}) as [F1 F2].
    repeat split; try assumption.
    apply fetchData_selects_once.
  - intros r w Hid Hin Hok.
    rewrite (submit_insert_path env s Hb Hid Hin), Hok. cbn.
    destruct (fetchData_frame env
      {| comp := {| tasks := tasks (comp s); newTask := NewTask.empty;
                    editingId := editingId (comp s) |}; world := w |}) as [F1 F2].
    repeat split; try assumption.
    apply fetchData_selects_once.
Qed.

(** C4, at [editingId = 0].  Task 0 is opened with "Edit" and the form is
    submitted; the submit succeeds (success notification, draft cleared,
    list refreshed) and [editingId] is still 0 afterwards. *)
Theorem submit_editing_id_zero_stays_set :
  let s := final (Sample.openFirst (JsString.lit "Whole")
                    (Sample.mounted (Sample.table [Sample.milk 0] true))) in
  let out := handleSubmit Memory.env s in
  emitted out
  = [Insert {| NewTask.title := JsString.lit "Buy milk";
               NewTask.desc := JsString.lit "Whole" |};
     Toast Success addedMessage; Select]
  /\ newTask (comp (final out)) = NewTask.empty
  /\ List.length (tasks (comp (final out))) = 2
  /\ editingId (comp (final out)) = Some 0%Z.
Proof. vm_compute. repeat split; reflexivity. Qed.

(** C5. A failed update leaves the component state as it was ([editingId],
    title and description keep their values) and only reports the error: no
    refresh follows.  A failed insert does the same. *)
Theorem submit_failure_changes_nothing {World} (env : Env World) (s : Sys World) :
  blank (newTask (comp s)) = false ->
  let out := handleSubmit env s in
  (forall id r w e,
     truthy_number (editingId (comp s)) = Some id ->
     update_task env (newTask (comp s)) id (world s) = (r, w) ->
     error r = Some e ->
     emitted out = [Update (newTask (comp s)) id;
                    Toast Error (updateErrorPrefix ++ message e)]
     /\ editingId (comp (final out)) = editingId (comp s)
     /\ newTask (comp (final out)) = newTask (comp s)
     /\ tasks (comp (final out)) = tasks (comp s)
     /\ filter isSelect (emitted out) = [])
  /\ (forall r w e,
        truthy_number (editingId (comp s)) = None ->
        insert_task env (newTask (comp s)) (world s) = (r, w) ->
        error r = Some e ->
        emitted out = [Insert (newTask (comp s));
                       Toast Error (insertErrorPrefix ++ message e)]
        /\ editingId (comp (final out)) = editingId (comp s)
        /\ newTask (comp (final out)) = newTask (comp s)
        /\ tasks (comp (final out)) = tasks (comp s)
        /\ filter isSelect (emitted out) = []).
Proof.
  intros Hb out. subst out. split.
  - intros id r w e Hid Hup He.
    rewrite (submit_update_path env s Hb Hid Hup), He. cbn.
    repeat split; reflexivity.
  - intros r w e Hid Hin He.
    rewrite (submit_insert_path env s Hb Hid Hin), He. cbn.
    repeat split; reflexivity.
Qed.

(** During an outage, an edit of task 5 and a new task both keep the form as
    typed. *)
Lemma submit_failure_changes_nothing_witness :
  let edit := {| comp := Sample.form [Sample.milk 5] (JsString.lit "Buy milk")
                           (JsString.lit "Whole") (Some 5%Z);
                 world := Sample.down [Sample.milk 5] true |} in
  let create := {| comp := Sample.form [Sample.milk 5] (JsString.lit "Buy bread")
                             (JsString.lit "Rye") None;
                   world := Sample.down [Sample.milk 5] true |} in
  (emitted (handleSubmit Memory.env edit)
   = [Update (newTask (comp edit)) 5;
      Toast Error (JsString.lit "Error updating task: network error")]
   /\ comp (final (handleSubmit Memory.env edit)) = comp edit)
  /\ (emitted (handleSubmit Memory.env create)
      = [Insert (newTask (comp create));
         Toast Error (JsString.lit "Error inserting task: network error")]
      /\ comp (final (handleSubmit Memory.env create)) = comp create).
Proof.
  intros edit create. split.
  - split.
    + exact (proj1 (proj1 (submit_failure_changes_nothing Memory.env edit eq_refl)
                      5%Z _ _ _ eq_refl eq_refl eq_refl)).
    + reflexivity.
  - split.
    + exact (proj1 (proj2 (submit_failure_changes_nothing Memory.env create eq_refl)
                      _ _ _ eq_refl eq_refl eq_refl)).
    + reflexivity.
Defined.

(** C10. [trim] only decides whether the draft is accepted.  When both
    trimmed fields are non-empty, the mutation call carries the draft's title
    and description exactly as typed, surrounding whitespace included. *)
Theorem submit_sends_untrimmed {World} (env : Env World) (s : Sys World) :
  JsString.trim (NewTask.title (newTask (comp s))) <> [] ->
  JsString.trim (NewTask.desc (newTask (comp s))) <> [] ->
  let sent := filter isMutation (emitted (handleSubmit env s)) in
  sent = [Insert {| NewTask.title := NewTask.title (newTask (comp s));
                    NewTask.desc := NewTask.desc (newTask (comp s)) |}]
  \/ exists id,
       sent = [Update {| NewTask.title := NewTask.title (newTask (comp s));
                         NewTask.desc := NewTask.desc (newTask (comp s)) |} id].
Proof.
  intros Ht Hd sent. subst sent. rewrite patch_is_draft.
  rewrite submit_one_mutation by (apply blank_false_iff; split; assumption).
  destruct (truthy_number (editingId (comp s))) as [id|].
  - right. exists id. reflexivity.
  - left. reflexivity.
Qed.

(** A title typed with two leading blanks and a trailing one, and a
    description ending in a line feed, reach the table verbatim. *)
Lemma submit_sends_untrimmed_witness :
  let s := {| comp := Sample.form [] (JsString.lit "  Buy milk ")
                        (JsString.lit "2%" ++ [0x0A]%N) None;
              world := Sample.table [] true |} in
  JsString.trim (JsString.lit "  Buy milk ") = JsString.lit "Buy milk"
  /\ (filter isMutation (emitted (handleSubmit Memory.env s))
      = [Insert {| NewTask.title := JsString.lit "  Buy milk ";
                   NewTask.desc := JsString.lit "2%" ++ [0x0A]%N |}]
      \/ exists id,
           filter isMutation (emitted (handleSubmit Memory.env s))
           = [Update {| NewTask.title := JsString.lit "  Buy milk ";
                        NewTask.desc := JsString.lit "2%" ++ [0x0A]%N |} id])
  /\ map Task.title (Memory.rows (world (final (handleSubmit Memory.env s))))
     = [JsString.lit "  Buy milk "].
Proof.
  intros s. split; [reflexivity|]. split; [|reflexivity].
  apply (submit_sends_untrimmed Memory.env s); vm_compute; discriminate.
Defined.

(** ** remove *)

(** [handleDelete] by the answers of the prompt and of the delete call. *)
Lemma handleDelete_cases {World} (env : Env World) (id : Z) (s : Sys World) :
  handleDelete env id s =
  let (yes, w1) := window_confirm env confirmMessage (world s) in
  if yes then
    let (r, w2) := delete_task env id w1 in
    match error r with
    | Some e =>
        {| value := tt; final := {| comp := comp s; world := w2 |};
           emitted := [Confirm confirmMessage; Delete id;
                       Toast Error (deleteErrorPrefix ++ message e)] |}
    | None =>
        let o := fetchData env {| comp := comp s; world := w2 |} in
        {| value := value o; final := final o;
           emitted := [Confirm confirmMessage; Delete id;
                       Toast Info deletedMessage] ++ emitted o |}
    end
  else
    {| value := tt; final := {| comp := comp s; world := w1 |};
       emitted := [Confirm confirmMessage] |}.
Proof.
  unfold_handlers.
  destruct (window_confirm env confirmMessage (world s)) as [[|] w1]; cbn;
    [|reflexivity].
  destruct (delete_task env id w1) as [r w2]; cbn.
  destruct (error r); reflexivity.
Qed.

(** C6 as it is stated does not hold.  [remove(5)] is confirmed and the
    delete call succeeds, yet nothing is shown on the success channel: the
    report goes out on the info channel. *)
Lemma remove_success_not_on_success_channel :
  let s := {| comp := Sample.form [Sample.milk 5] [] [] None;
              world := Sample.table [Sample.milk 5] true |} in
  let out := handleDelete Memory.env 5 s in
  fst (window_confirm Memory.env confirmMessage (world s)) = true
  /\ error (fst (delete_task Memory.env 5 (world s))) = None
  /\ emitted out = [Confirm confirmMessage; Delete 5;
                    Toast Info deletedMessage; Select]
  /\ existsb (isToastOn Success) (emitted out) = false
  /\ ~ (exists msg, In (Toast Success msg) (emitted out)).
Proof.
  cbv zeta. repeat split; try reflexivity.
  intros [msg H]. vm_compute in H.
  repeat (destruct H as [H|H]; [discriminate H|]). exact H.
Qed.

(** C6, amended.  For a confirmed [remove(id)]: when the delete call fails,
    an error is reported, the component state is unchanged and no refresh is
    issued; when it succeeds, "Task deleted successfully!" is reported on the
    info channel (nothing on the success channel) and one refresh is run. *)
Theorem remove_confirmed {World} (env : Env World) (id : Z) (s : Sys World)
    (w1 w2 : World) (r : Response unit) :
  window_confirm env confirmMessage (world s) = (true, w1) ->
  delete_task env id w1 = (r, w2) ->
  let out := handleDelete env id s in
  (forall e, error r = Some e ->
     emitted out = [Confirm confirmMessage; Delete id;
                    Toast Error (deleteErrorPrefix ++ message e)]
     /\ tasks (comp (final out)) = tasks (comp s)
     /\ comp (final out) = comp s
     /\ filter isSelect (emitted out) = [])
  /\ (error r = None ->
      let refresh := fetchData env {| comp := comp s; world := w2 |} in
      emitted out = [Confirm confirmMessage; Delete id;
                     Toast Info deletedMessage] ++ emitted refresh
      /\ final out = final refresh
      /\ filter isToast (emitted out)
         = Toast Info deletedMessage :: filter isToast (emitted refresh)
      /\ existsb (isToastOn Success) (emitted out) = false
      /\ filter isSelect (emitted out) = [Select]).
Proof.
  intros Hc Hd out. subst out. rewrite handleDelete_cases, Hc, Hd. split.
  - intros e He. rewrite He. cbn. repeat split; reflexivity.
  - intros Hok refresh. rewrite Hok. cbn. fold refresh.
    repeat split; try reflexivity.
    + apply fetchData_no_success_toast.
    + apply fetchData_selects_once.
Qed.

(** Task 5 is deleted from a table of two: the info toast, then the refreshed
    list; during an outage only the error is shown. *)
Lemma remove_confirmed_witness :
  let up := {| comp := Sample.form [Sample.milk 5; Sample.bread] [] [] None;
               world := Sample.table [Sample.milk 5; Sample.bread] true |} in
  let dn := {| comp := Sample.form [Sample.milk 5; Sample.bread] [] [] None;
               world := Sample.down [Sample.milk 5; Sample.bread] true |} in
  (emitted (handleDelete Memory.env 5 up)
   = [Confirm confirmMessage; Delete 5; Toast Info deletedMessage; Select]
   /\ tasks (comp (final (handleDelete Memory.env 5 up))) = [Sample.bread])
  /\ emitted (handleDelete Memory.env 5 dn)
     = [Confirm confirmMessage; Delete 5;
        Toast Error (JsString.lit "Error deleting task: network error")].
Proof.
  intros up dn. split.
  - split.
    + exact (proj1 (proj2 (remove_confirmed Memory.env 5 up eq_refl eq_refl)
                      eq_refl)).
    + reflexivity.
  - exact (proj1 (proj1 (remove_confirmed Memory.env 5 dn eq_refl eq_refl)
                    _ eq_refl)).
Defined.

(** C7. When the user declines the prompt, [remove(id)] does nothing: the
    prompt is the only effect, so no delete call is issued and no notification
    is shown, and [tasks], the draft fields and [editingId] are unchanged. *)
Theorem remove_declined_is_noop {World} (env : Env World) (id : Z)
    (s : Sys World) (w1 : World) :
  window_confirm env confirmMessage (world s) = (false, w1) ->
  let out := handleDelete env id s in
  emitted out = [Confirm confirmMessage]
  /\ filter isRemote (emitted out) = []
  /\ filter isToast (emitted out) = []
  /\ tasks (comp (final out)) = tasks (comp s)
  /\ newTask (comp (final out)) = newTask (comp s)
  /\ editingId (comp (final out)) = editingId (comp s)
  /\ world (final out) = w1.
Proof.
  intros Hc out. subst out. rewrite handleDelete_cases, Hc. cbn.
  repeat split; reflexivity.
Qed.

(** [remove(5)] declined: task 5 stays in the table. *)
Lemma remove_declined_is_noop_witness :
  let s := {| comp := Sample.form [Sample.milk 5] (JsString.lit "Buy bread") []
                        (Some 5%Z);
              world := Sample.table [Sample.milk 5] false |} in
  emitted (handleDelete Memory.env 5 s) = [Confirm confirmMessage]
  /\ final (handleDelete Memory.env 5 s) = s.
Proof.
  intros s. split.
  - exact (proj1 (remove_declined_is_noop Memory.env 5 s eq_refl)).
  - reflexivity.
Defined.

(** C9. [remove(id)] never touches the draft: whatever the user and the
    backend answer, title, description and [editingId] are what they were.
    In particular, after the task being edited has been deleted, [editingId]
    still holds its id. *)
Theorem remove_preserves_draft {World} (env : Env World) (id : Z) (s : Sys World) :
  let out := handleDelete env id s in
  newTask (comp (final out)) = newTask (comp s)
  /\ editingId (comp (final out)) = editingId (comp s)
  /\ (editingId (comp s) = Some id ->
      editingId (comp (final out)) = Some id).
Proof.
  intros out.
  assert (H : newTask (comp (final out)) = newTask (comp s)
              /\ editingId (comp (final out)) = editingId (comp s)).
  { subst out. rewrite handleDelete_cases.
    destruct (window_confirm env confirmMessage (world s)) as [[|] w1];
      [|split; reflexivity].
    destruct (delete_task env id w1) as [r w2].
    destruct (error r); [split; reflexivity|].
    cbn. apply (fetchData_frame env {| comp := comp s; world := w2 |}). }
  destruct H as [H1 H2]. repeat split; try assumption.
  intros E. rewrite H2. exact E.
Qed.

(** Task 5 is deleted while it is being edited: the refreshed list no longer
    has it, the form still does. *)
Lemma remove_preserves_draft_witness :
  let s := {| comp := Sample.form [Sample.milk 5; Sample.bread]
                        (JsString.lit "Buy milk") (JsString.lit "Whole")
                        (Some 5%Z);
              world := Sample.table [Sample.milk 5; Sample.bread] true |} in
  let out := handleDelete Memory.env 5 s in
  tasks (comp (final out)) = [Sample.bread]
  /\ Memory.rows (world (final out)) = [Sample.bread]
  /\ newTask (comp (final out)) = newTask (comp s)
  /\ editingId (comp (final out)) = Some 5%Z.
Proof.
  intros s out. split; [reflexivity|]. split; [reflexivity|].
  destruct (remove_preserves_draft Memory.env 5 s) as [H1 [_ H3]].
  split; [exact H1 | exact (H3 eq_refl)].
Defined.

(** ** beginEdit and cancelEdit *)

(** [beginEdit] copies the task into the form and issues no call. *)
Lemma handleEdit_loads_task {World} (task : Task.t) (s : Sys World) :
  handleEdit task s =
  {| value := tt;
     final := {| comp := {| tasks := tasks (comp s);
                            newTask := {| NewTask.title := Task.title task;
                                          NewTask.desc := Task.desc task |};
                            editingId := Some (Task.id task) |};
                 world := world s |};
     emitted := [] |}.
Proof. reflexivity. Qed.

(** The "Cancel Edit" button is on screen exactly when [editingId] is a
    non-zero id. *)
Lemma cancelButtonShown_after_edit {World} (task : Task.t) (s : Sys World) :
  cancelButtonShown (comp (final (handleEdit task s)))
  = negb (Task.id task =? 0)%Z.
Proof.
  rewrite handleEdit_loads_task. unfold cancelButtonShown. cbn.
  destruct (Task.id task =? 0)%Z; reflexivity.
Qed.

(** A click on "Cancel Edit" by whether the button is on screen. *)
Lemma clickCancel_cases {World} (s : Sys World) :
  clickCancel s =
  if cancelButtonShown (comp s)
  then {| value := tt;
          final := {| comp := {| tasks := tasks (comp s);
                                 newTask := NewTask.empty;
                                 editingId := None |};
                      world := world s |};
          emitted := [Toast Info cancelledMessage] |}
  else {| value := tt; final := s; emitted := [] |}.
Proof.
  unfold clickCancel, bind, getState. cbn [value final emitted app].
  destruct (cancelButtonShown (comp s)); reflexivity.
Qed.

(** For a task with a non-zero id, "Edit" followed at once by "Cancel Edit"
    issues no remote call, leaves the outside world and [tasks] as they were
    and ends with the empty create-mode draft. *)
Lemma edit_then_click_cancel_restores_draft {World} (task : Task.t)
    (s : Sys World) :
  Task.id task <> 0%Z ->
  let out := (handleEdit task ;; clickCancel) s in
  emitted out = [Toast Info cancelledMessage]
  /\ world (final out) = world s
  /\ tasks (comp (final out)) = tasks (comp s)
  /\ newTask (comp (final out)) = NewTask.empty
  /\ editingId (comp (final out)) = None.
Proof.
  intros Hid out. subst out. unfold bind. cbn [value final emitted].
  rewrite clickCancel_cases, cancelButtonShown_after_edit.
  destruct (Z.eqb_spec (Task.id task) 0); [contradiction|].
  rewrite handleEdit_loads_task. cbn. repeat split; reflexivity.
Qed.

(** C8, at a task with id 0.  Task 0 is loaded from the table and opened
    with "Edit": [editingId] is 0, the slot of the "Cancel Edit" button
    renders the text "0" and no button, so the edit cannot be cancelled.  The
    click does nothing: the draft stays loaded and [editingId] stays 0. *)
Theorem cancel_after_edit_of_task_zero_does_nothing :
  let s := final ((onMount Memory.env ;; clickEdit 0)
                    (Sample.mounted (Sample.table [Sample.milk 0] true))) in
  let out := clickCancel s in
  editingId (comp s) = Some 0%Z
  /\ View.cancel (render (comp s)) = View.ZeroText
  /\ cancelButtonShown (comp s) = false
  /\ emitted out = []
  /\ newTask (comp (final out))
     = {| NewTask.title := JsString.lit "Buy milk";
          NewTask.desc := JsString.lit "2%" |}
  /\ editingId (comp (final out)) = Some 0%Z.
Proof. vm_compute. repeat split; reflexivity. Qed.

(** ** Further properties of the handlers *)

(** [fetchData] by the answer of the select call. *)
Lemma fetchData_cases {World} (env : Env World) (s : Sys World) :
  fetchData env s =
  let (r, w) := select_tasks env (world s) in
  match error r with
  | Some e =>
      {| value := tt; final := {| comp := comp s; world := w |};
         emitted := [Select; Toast Error (fetchErrorPrefix ++ message e)] |}
  | None =>
      {| value := tt;
         final := {| comp := {| tasks := orEmpty (data r);
                                newTask := newTask (comp s);
                                editingId := editingId (comp s) |};
                     world := w |};
         emitted := [Select] |}
  end.
Proof.
  unfold_fetch. destruct (select_tasks env (world s)) as [r w]. cbn.
  destruct (error r); reflexivity.
Qed.

(** [handleSubmit] by the answers of the calls it makes. *)
Lemma handleSubmit_cases {World} (env : Env World) (s : Sys World) :
  handleSubmit env s =
  if blank (newTask (comp s))
  then {| value := tt; final := s; emitted := [Toast Warn fillInMessage] |}
  else
    match truthy_number (editingId (comp s)) with
    | Some id =>
        let (r, w) := update_task env (newTask (comp s)) id (world s) in
        match error r with
        | Some e =>
            {| value := tt; final := {| comp := comp s; world := w |};
               emitted := [Update (newTask (comp s)) id;
                           Toast Error (updateErrorPrefix ++ message e)] |}
        | None =>
            let o := fetchData env
                       {| comp := {| tasks := tasks (comp s);
                                     newTask := NewTask.empty;
                                     editingId := None |};
                          world := w |} in
            {| value := value o; final := final o;
               emitted := [Update (newTask (comp s)) id;
                           Toast Success updatedMessage] ++ emitted o |}
        end
    | None =>
        let (r, w) := insert_task env (newTask (comp s)) (world s) in
        match error r with
        | Some e =>
            {| value := tt; final := {| comp := comp s; world := w |};
               emitted := [Insert (newTask (comp s));
                           Toast Error (insertErrorPrefix ++ message e)] |}
        | None =>
            let o := fetchData env
                       {| comp := {| tasks := tasks (comp s);
                                     newTask := NewTask.empty;
                                     editingId := editingId (comp s) |};
                          world := w |} in
            {| value := value o; final := final o;
               emitted := [Insert (newTask (comp s));
                           Toast Success addedMessage] ++ emitted o |}
        end
    end.
Proof.
  destruct (blank (newTask (comp s))) eqn:Hb.
  - unfold_handlers. cbn. rewrite Hb. reflexivity.
  - destruct (truthy_number (editingId (comp s))) as [id|] eqn:Hid.
    + destruct (update_task env (newTask (comp s)) id (world s)) as [r w] eqn:Hup.
      exact (submit_update_path env s Hb Hid Hup).
    + destruct (insert_task env (newTask (comp s)) (world s)) as [r w] eqn:Hin.
      exact (submit_insert_path env s Hb Hid Hin).
Qed.

(** Case on every answer a run of [handleSubmit] or [handleDelete] depends
    on. *)
Ltac by_answers :=
  repeat match goal with
         | |- context [if blank ?d then _ else _] => destruct (blank d) eqn:?
         | |- context [match truthy_number ?v with _ => _ end] =>
             destruct (truthy_number v) eqn:?
         | |- context [let (_, _) := ?c in _] => destruct c as [? ?] eqn:?
         | |- context [match error ?r with _ => _ end] =>
             destruct (error r) eqn:?
         | |- context [if ?b then _ else _] => destruct b eqn:?
         | |- context [fetchData ?e ?s] => rewrite (fetchData_cases e s)
         end; cbn.

(** X1. Whatever the backend answers, a run of [handleSubmit] has one of four
    shapes: the warning alone; the mutation and its error; the mutation, its
    success toast and the select; or those three followed by the error of the
    refresh.  So the select never precedes the mutation, nothing follows a
    failed mutation, and every run shows a toast. *)
Theorem submit_trace_shapes {World} (env : Env World) (s : Sys World) :
  let out := handleSubmit env s in
  let d := newTask (comp s) in
  emitted out = [Toast Warn fillInMessage]
  \/ exists m,
       (m = Insert d \/ exists id, m = Update d id)
       /\ ((exists e, emitted out = [m; Toast Error e])
           \/ (exists ok, emitted out = [m; Toast Success ok; Select])
           \/ (exists ok e,
                 emitted out = [m; Toast Success ok; Select; Toast Error e])).
Proof.
  intros out d. subst out d. rewrite handleSubmit_cases.
  destruct (blank (newTask (comp s))); [left; reflexivity | right].
  destruct (truthy_number (editingId (comp s))) as [id|].
  - exists (Update (newTask (comp s)) id).
    split; [right; exists id; reflexivity|].
    by_answers;
      first [ left; eexists; reflexivity
            | right; left; eexists; reflexivity
            | right; right; eexists; eexists; reflexivity ].
  - exists (Insert (newTask (comp s))). split; [left; reflexivity|].
    by_answers;
      first [ left; eexists; reflexivity
            | right; left; eexists; reflexivity
            | right; right; eexists; eexists; reflexivity ].
Qed.

(** X2. Whatever the user and the backend answer, a run of [handleDelete]
    opens with the prompt and has one of four shapes: the prompt alone; the
    prompt, the delete and its error; the prompt, the delete, the info toast
    and the select; or those four followed by the error of the refresh. *)
Theorem remove_trace_shapes {World} (env : Env World) (id : Z) (s : Sys World) :
  let out := handleDelete env id s in
  emitted out = [Confirm confirmMessage]
  \/ (exists e, emitted out = [Confirm confirmMessage; Delete id; Toast Error e])
  \/ emitted out = [Confirm confirmMessage; Delete id;
                    Toast Info deletedMessage; Select]
  \/ (exists e, emitted out = [Confirm confirmMessage; Delete id;
                               Toast Info deletedMessage; Select;
                               Toast Error e]).
Proof.
  intros out. subst out. rewrite handleDelete_cases. by_answers.
  all: first [ left; reflexivity
             | right; left; eexists; reflexivity
             | right; right; left; reflexivity
             | right; right; right; eexists; reflexivity ].
Qed.

(** X3. When the mutation of a submit succeeds and the refresh that follows
    fails, the list on screen is the stale one while the form has been
    cleared and put back in create mode; the user sees the success toast and
    then the error of the refresh. *)
Theorem submit_ok_refresh_fails_keeps_stale_list {World} (env : Env World)
    (s : Sys World) (r1 : Response unit) (w1 : World)
    (r2 : Response (list Task.t)) (w2 : World) (e : PostgrestError) :
  blank (newTask (comp s)) = false ->
  match truthy_number (editingId (comp s)) with
  | Some id => update_task env (newTask (comp s)) id (world s)
  | None => insert_task env (newTask (comp s)) (world s)
  end = (r1, w1) ->
  error r1 = None ->
  select_tasks env w1 = (r2, w2) ->
  error r2 = Some e ->
  let out := handleSubmit env s in
  tasks (comp (final out)) = tasks (comp s)
  /\ newTask (comp (final out)) = NewTask.empty
  /\ truthy_number (editingId (comp (final out))) = None
  /\ world (final out) = w2
  /\ exists ok,
       filter isToast (emitted out)
       = [Toast Success ok; Toast Error (fetchErrorPrefix ++ message e)].
Proof.
  intros Hb Hmut Hok Hsel He out. subst out.
  rewrite handleSubmit_cases, Hb.
  destruct (truthy_number (editingId (comp s))) as [id|] eqn:Hid;
    rewrite Hmut, Hok; cbn; rewrite fetchData_cases; cbn;
    rewrite Hsel, He; cbn; repeat split; try assumption;
    eexists; reflexivity.
Qed.

(** Task 5 is edited behind a connection that drops the second call: the
    table holds the new description, the list on screen the old one. *)
Lemma submit_ok_refresh_fails_keeps_stale_list_witness :
  let s := {| comp := Sample.form [Sample.milk 5] (JsString.lit "Buy milk")
                        (JsString.lit "Whole") (Some 5%Z);
              world := Flaky.behind [None; Some (JsString.lit "timeout")]
                         [Sample.milk 5] true |} in
  let out := handleSubmit Flaky.env s in
  map Task.desc (Memory.rows (Flaky.table (world (final out))))
  = [JsString.lit "Whole"]
  /\ map Task.desc (tasks (comp (final out))) = [JsString.lit "2%"]
  /\ newTask (comp (final out)) = NewTask.empty.
Proof.
  intros s out. split; [reflexivity|].
  destruct (submit_ok_refresh_fails_keeps_stale_list Flaky.env s
              (r1 := Memory.done) (e := {| message := JsString.lit "timeout" |})
              eq_refl eq_refl eq_refl eq_refl eq_refl) as [H1 [H2 _]].
  split; [|exact H2].
  exact (f_equal (map Task.desc) H1).
Defined.

(** X4. When a confirmed delete succeeds and the refresh that follows fails,
    the component state is what it was: the deleted task is still listed.
    The user sees the info toast and then the error of the refresh. *)
Theorem remove_ok_refresh_fails_keeps_deleted_task {World} (env : Env World)
    (id : Z) (s : Sys World) (w1 w2 w3 : World) (r1 : Response unit)
    (r2 : Response (list Task.t)) (e : PostgrestError) :
  window_confirm env confirmMessage (world s) = (true, w1) ->
  delete_task env id w1 = (r1, w2) ->
  error r1 = None ->
  select_tasks env w2 = (r2, w3) ->
  error r2 = Some e ->
  let out := handleDelete env id s in
  comp (final out) = comp s
  /\ world (final out) = w3
  /\ emitted out = [Confirm confirmMessage; Delete id;
                    Toast Info deletedMessage; Select;
                    Toast Error (fetchErrorPrefix ++ message e)].
Proof.
  intros Hc Hd Hok Hsel He out. subst out.
  rewrite handleDelete_cases, Hc, Hd, Hok. cbn.
  rewrite fetchData_cases. cbn. rewrite Hsel, He. cbn.
  destruct (comp s). repeat split; reflexivity.
Qed.

(** Task 5 is deleted behind a connection that drops the second call: the
    table is empty, the list on screen still shows task 5. *)
Lemma remove_ok_refresh_fails_keeps_deleted_task_witness :
  let s := {| comp := Sample.form [Sample.milk 5] [] [] None;
              world := Flaky.behind [None; Some (JsString.lit "timeout")]
                         [Sample.milk 5] true |} in
  let out := handleDelete Flaky.env 5 s in
  Memory.rows (Flaky.table (world (final out))) = []
  /\ tasks (comp (final out)) = [Sample.milk 5].
Proof.
  intros s out. split; [reflexivity|].
  destruct (remove_ok_refresh_fails_keeps_deleted_task Flaky.env 5 s
              (r1 := Memory.done) (e := {| message := JsString.lit "timeout" |})
              eq_refl eq_refl eq_refl eq_refl eq_refl) as [H1 _].
  exact (f_equal tasks H1).
Defined.

(** After a run of [handleSubmit] that showed a success toast the draft is
    empty. *)
Lemma submit_success_toast_clears_draft {World} (env : Env World) (s : Sys World) :
  existsb (isToastOn Success) (emitted (handleSubmit env s)) = true ->
  newTask (comp (final (handleSubmit env s))) = NewTask.empty.
Proof.
  rewrite handleSubmit_cases. by_answers; intros H;
    first [discriminate H | reflexivity].
Qed.

(** A run of [handleSubmit] that showed no success toast left the component
    state alone. *)
Lemma submit_no_success_toast_keeps_state {World} (env : Env World) (s : Sys World) :
  existsb (isToastOn Success) (emitted (handleSubmit env s)) = false ->
  comp (final (handleSubmit env s)) = comp s.
Proof.
  rewrite handleSubmit_cases. by_answers; intros H;
    first [discriminate H | reflexivity].
Qed.

(** X5. A submit that succeeded cannot be repeated by submitting again: the
    form it cleared fails validation, so the second submit only warns and
    issues no call. *)
Theorem submit_again_after_success_only_warns {World} (env : Env World)
    (s : Sys World) :
  let first := handleSubmit env s in
  let second := handleSubmit env (final first) in
  existsb (isToastOn Success) (emitted first) = true ->
  emitted second = [Toast Warn fillInMessage]
  /\ final second = final first.
Proof.
  intros first second H. subst first second.
  apply submit_success_toast_clears_draft in H.
  rewrite (handleSubmit_cases env (final (handleSubmit env s))), H.
  split; reflexivity.
Qed.

(** "Buy bread" is added, then the button is pressed once more. *)
Lemma submit_again_after_success_only_warns_witness :
  let s := {| comp := Sample.form [] (JsString.lit "Buy bread")
                        (JsString.lit "Rye") None;
              world := Sample.table [] true |} in
  let first := handleSubmit Memory.env s in
  emitted (handleSubmit Memory.env (final first)) = [Toast Warn fillInMessage]
  /\ List.length (Memory.rows (world (final first))) = 1.
Proof.
  intros s first. split; [|reflexivity].
  exact (proj1 (submit_again_after_success_only_warns Memory.env s eq_refl)).
Defined.

(** X6. A submit that did not succeed can be retried as it is: the component
    state is unchanged, so submitting again issues the same mutation call
    with the same payload. *)
Theorem submit_retry_repeats_the_call {World} (env : Env World) (s : Sys World) :
  let first := handleSubmit env s in
  let second := handleSubmit env (final first) in
  blank (newTask (comp s)) = false ->
  existsb (isToastOn Success) (emitted first) = false ->
  comp (final first) = comp s
  /\ filter isMutation (emitted second) = filter isMutation (emitted first)
  /\ List.length (filter isMutation (emitted second)) = 1.
Proof.
  intros first second Hb H. subst first second.
  apply submit_no_success_toast_keeps_state in H.
  assert (Hb' : blank (newTask (comp (final (handleSubmit env s)))) = false)
    by (rewrite H; exact Hb).
  rewrite (submit_one_mutation env (final (handleSubmit env s)) Hb'), H.
  rewrite (submit_one_mutation env s Hb).
  repeat split.
  destruct (truthy_number (editingId (comp s))); reflexivity.
Qed.

(** The edit of task 5 fails on the first try and goes through on the
    second. *)
Lemma submit_retry_repeats_the_call_witness :
  let s := {| comp := Sample.form [Sample.milk 5] (JsString.lit "Buy milk")
                        (JsString.lit "Whole") (Some 5%Z);
              world := Flaky.behind [Some (JsString.lit "timeout")]
                         [Sample.milk 5] true |} in
  let first := handleSubmit Flaky.env s in
  let second := handleSubmit Flaky.env (final first) in
  filter isMutation (emitted second) = filter isMutation (emitted first)
  /\ map Task.desc (tasks (comp (final second))) = [JsString.lit "Whole"].
Proof.
  intros s first second. split; [|reflexivity].
  exact (proj1 (proj2 (submit_retry_repeats_the_call Flaky.env s
                         eq_refl eq_refl))).
Defined.

(** X7. The list is never patched locally.  After [handleSubmit] or
    [handleDelete] the list is either the one from before or exactly what a
    select answered without error. *)
Theorem tasks_change_only_by_select {World} (env : Env World) (id : Z)
    (s : Sys World) :
  (let out := handleSubmit env s in
   tasks (comp (final out)) = tasks (comp s)
   \/ exists w r w',
        select_tasks env w = (r, w') /\ error r = None
        /\ tasks (comp (final out)) = orEmpty (data r)
        /\ world (final out) = w')
  /\ (let out := handleDelete env id s in
      tasks (comp (final out)) = tasks (comp s)
      \/ exists w r w',
           select_tasks env w = (r, w') /\ error r = None
           /\ tasks (comp (final out)) = orEmpty (data r)
           /\ world (final out) = w').
Proof.
  split; cbv zeta.
  - rewrite handleSubmit_cases. by_answers;
      first [ left; reflexivity
            | right; do 3 eexists; repeat split; eassumption ].
  - rewrite handleDelete_cases. by_answers;
      first [ left; reflexivity
            | right; do 3 eexists; repeat split; eassumption ].
Qed.

(** ** Typing *)

(** Keystrokes stay in the form: they issue nothing and leave the world,
    the list and the edit target alone. *)
Lemma typing_frame {World} (keys : list Key) (s : Sys World) :
  emitted (typing keys s) = []
  /\ world (final (typing keys s)) = world s
  /\ tasks (comp (final (typing keys s))) = tasks (comp s)
  /\ editingId (comp (final (typing keys s))) = editingId (comp s).
Proof.
  revert s. induction keys as [|k rest IH]; intros s.
  - repeat split; reflexivity.
  - change (typing (k :: rest) s) with ((onKey k ;; typing rest) s).
    unfold bind. cbn [emitted final value].
    destruct (IH (final (onKey k s))) as [E [W [T I]]].
    rewrite E, W, T, I. destruct k; repeat split; reflexivity.
Qed.

Lemma typing_app {World} (k1 k2 : list Key) (s : Sys World) :
  final (typing (k1 ++ k2) s) = final (typing k2 (final (typing k1 s))).
Proof.
  revert s. induction k1 as [|k rest IH]; intros s; [reflexivity|].
  cbn [app]. change (typing (k :: rest ++ k2) s)
    with ((onKey k ;; typing (rest ++ k2)) s).
  change (typing (k :: rest) s) with ((onKey k ;; typing rest) s).
  unfold bind. cbn [final]. apply IH.
Qed.

(** Keystrokes in the description leave the title alone, and the other way
    round. *)
Lemma typing_other_field {World} (keys : list Key) (s : Sys World) :
  (forallb (fun k => match k with TypeTitle _ => false | TypeDesc _ => true end)
     keys = true ->
   NewTask.title (newTask (comp (final (typing keys s))))
   = NewTask.title (newTask (comp s)))
  /\ (forallb (fun k => match k with TypeTitle _ => true | TypeDesc _ => false end)
        keys = true ->
      NewTask.desc (newTask (comp (final (typing keys s))))
      = NewTask.desc (newTask (comp s))).
Proof.
  revert s. induction keys as [|k rest IH]; intros s.
  - split; reflexivity.
  - change (typing (k :: rest) s) with ((onKey k ;; typing rest) s).
    unfold bind. cbn [final value forallb].
    destruct (IH (final (onKey k s))) as [IT ID].
    split; intros H; apply andb_prop in H; destruct H as [Hk Hr];
      destruct k; try discriminate Hk.
    + rewrite (IT Hr). reflexivity.
    + rewrite (ID Hr). reflexivity.
Qed.

(** X8. Each input shows its own last keystroke: after any typing, the draft
    title is the value of the last title keystroke and the draft description
    the value of the last description keystroke, however the two are
    interleaved; nothing is emitted and [editingId], [tasks] and the outside
    world are untouched. *)
Theorem typing_last_keystroke_wins {World} (before after : list Key)
    (v : jsstring) (s : Sys World) :
  (forallb (fun k => match k with TypeTitle _ => false | TypeDesc _ => true end)
     after = true ->
   NewTask.title
     (newTask (comp (final (typing (before ++ TypeTitle v :: after) s)))) = v)
  /\ (forallb (fun k => match k with TypeTitle _ => true | TypeDesc _ => false end)
        after = true ->
      NewTask.desc
        (newTask (comp (final (typing (before ++ TypeDesc v :: after) s)))) = v)
  /\ (forall keys,
        emitted (typing keys s) = []
        /\ world (final (typing keys s)) = world s
        /\ tasks (comp (final (typing keys s))) = tasks (comp s)
        /\ editingId (comp (final (typing keys s))) = editingId (comp s)).
Proof.
  split; [|split].
  - intros H. rewrite typing_app.
    change (typing (TypeTitle v :: after) (final (typing before s)))
      with ((onKey (TypeTitle v) ;; typing after) (final (typing before s))).
    unfold bind. cbn [final value].
    rewrite (proj1 (typing_other_field after _) H). reflexivity.
  - intros H. rewrite typing_app.
    change (typing (TypeDesc v :: after) (final (typing before s)))
      with ((onKey (TypeDesc v) ;; typing after) (final (typing before s))).
    unfold bind. cbn [final value].
    rewrite (proj2 (typing_other_field after _) H). reflexivity.
  - intros keys. apply typing_frame.
Qed.

(** "Buy", a description, "Buy milk", another description. *)
Lemma typing_last_keystroke_wins_witness :
  let keys := [TypeTitle (JsString.lit "Buy"); TypeDesc (JsString.lit "2");
               TypeTitle (JsString.lit "Buy milk"); TypeDesc (JsString.lit "2%")] in
  let s := Sample.mounted (Sample.table [] true) in
  NewTask.title (newTask (comp (final (typing keys s)))) = JsString.lit "Buy milk"
  /\ NewTask.desc (newTask (comp (final (typing keys s)))) = JsString.lit "2%".
Proof.
  intros keys s. split.
  - exact (proj1 (typing_last_keystroke_wins
       [TypeTitle (JsString.lit "Buy"); TypeDesc (JsString.lit "2")]
       [TypeDesc (JsString.lit "2%")] (JsString.lit "Buy milk") s) eq_refl).
  - exact (proj1 (proj2 (typing_last_keystroke_wins
       [TypeTitle (JsString.lit "Buy"); TypeDesc (JsString.lit "2");
        TypeTitle (JsString.lit "Buy milk")]
       [] (JsString.lit "2%") s)) eq_refl).
Defined.

(** X9. Whatever is typed after "Edit" was clicked on a task with a non-zero
    id, a submit that passes validation issues one mutation call: the update
    of the task that was clicked, carrying what the form holds. *)
Theorem edit_type_submit_updates_clicked_task {World} (env : Env World)
    (task : Task.t) (keys : list Key) (s : Sys World) :
  let typed := final ((handleEdit task ;; typing keys) s) in
  Task.id task <> 0%Z ->
  blank (newTask (comp typed)) = false ->
  filter isMutation
    (emitted ((handleEdit task ;; typing keys ;; handleSubmit env) s))
  = [Update (newTask (comp typed)) (Task.id task)].
Proof.
  intros typed Hid Hb. subst typed. revert Hb.
  unfold bind at 1 2 3 4. cbn [final value emitted].
  rewrite handleEdit_loads_task. cbn [final value emitted app].
  set (s1 := {| comp := _; world := world s |}).
  intros Hb.
  destruct (typing_frame keys s1) as [E [_ [_ I]]].
  rewrite E. cbn [app].
  rewrite (submit_one_mutation env (final (typing keys s1)) Hb), I.
  subst s1. cbn. destruct (Z.eqb_spec (Task.id task) 0); [contradiction|].
  reflexivity.
Qed.

(** Task 5 is opened, its description retyped twice, and submitted. *)
Lemma edit_type_submit_updates_clicked_task_witness :
  let keys := [TypeDesc (JsString.lit "Who"); TypeDesc (JsString.lit "Whole")] in
  let s := {| comp := Sample.form [Sample.milk 5; Sample.bread] [] [] None;
              world := Sample.table [Sample.milk 5; Sample.bread] true |} in
  filter isMutation
    (emitted ((handleEdit (Sample.milk 5) ;; typing keys ;;
               handleSubmit Memory.env) s))
  = [Update {| NewTask.title := JsString.lit "Buy milk";
               NewTask.desc := JsString.lit "Whole" |} 5].
Proof.
  intros keys s.
  refine (edit_type_submit_updates_clicked_task Memory.env (Sample.milk 5)
            keys s _ eq_refl).
  discriminate.
Defined.

(** X10. Whatever is typed after "Edit" was clicked on a task with a
    non-zero id, a click on "Cancel Edit" throws it away: the form is empty
    and in create mode again, the only effect is the "Edit cancelled" toast,
    and the outside world and the list are as they were. *)
Theorem edit_type_cancel_discards {World} (task : Task.t) (keys : list Key)
    (s : Sys World) :
  Task.id task <> 0%Z ->
  let out := (handleEdit task ;; typing keys ;; clickCancel) s in
  emitted out = [Toast Info cancelledMessage]
  /\ filter isRemote (emitted out) = []
  /\ world (final out) = world s
  /\ tasks (comp (final out)) = tasks (comp s)
  /\ newTask (comp (final out)) = NewTask.empty
  /\ editingId (comp (final out)) = None.
Proof.
  intros Hid out. subst out.
  unfold clickCancel, bind, getState. cbn [final value emitted].
  rewrite handleEdit_loads_task. cbn [final value emitted app].
  match goal with
  | |- context [typing keys ?s1] =>
      destruct (typing_frame keys s1) as [E [W [T I]]];
      assert (Hs : cancelButtonShown (comp (final (typing keys s1))) = true)
  end.
  { unfold cancelButtonShown. rewrite I. cbn.
    destruct (Z.eqb_spec (Task.id task) 0); [contradiction | reflexivity]. }
  rewrite Hs, E. unfold cancelEdit. unfold_monad. cbn.
  rewrite W, T. repeat split; reflexivity.
Qed.

(** Task 5 is opened, its description retyped twice, and the edit is
    cancelled: the table still holds the old description. *)
Lemma edit_type_cancel_discards_witness :
  let keys := [TypeDesc (JsString.lit "Who"); TypeDesc (JsString.lit "Whole")] in
  let s := {| comp := Sample.form [Sample.milk 5; Sample.bread] [] [] None;
              world := Sample.table [Sample.milk 5; Sample.bread] true |} in
  let out := (handleEdit (Sample.milk 5) ;; typing keys ;; clickCancel) s in
  emitted out = [Toast Info cancelledMessage]
  /\ comp (final out) = comp s
  /\ Memory.rows (world (final out)) = [Sample.milk 5; Sample.bread].
Proof.
  intros keys s out.
  assert (K : Task.id (Sample.milk 5) <> 0%Z) by discriminate.
  split; [|split; reflexivity].
  exact (proj1 (edit_type_cancel_discards (Sample.milk 5) keys s K)).
Defined.

(** ** The screen *)

Lemma renderList_nonempty (l : list Task.t) :
  l <> [] -> renderList l = View.Items (map renderItem l).
Proof. destruct l; [contradiction | reflexivity]. Qed.

(** When items are listed, they are the tasks of the state, one for one. *)
Lemma listed_items (st : State) (items : list View.Item) (n : nat)
    (item : View.Item) :
  View.listing (render st) = View.Items items ->
  nth_error items n = Some item ->
  exists task, nth_error (tasks st) n = Some task /\ renderItem task = item.
Proof.
  unfold render, renderList. cbn.
  destruct (List.length (tasks st) =? 0)%nat; [discriminate|].
  intros H Hn. injection H as <-. rewrite nth_error_map in Hn.
  destruct (nth_error (tasks st) n) as [task|]; [|discriminate].
  exists task. split; [reflexivity|]. injection Hn as ->. reflexivity.
Qed.

(** X11. After a refresh that succeeded the screen lists the rows the
    backend returned, in the backend's order, one item per row with the
    row's id, title and description; it shows "No tasks yet." when the
    backend returned no row or no data.  The form is shown as before. *)
Theorem refresh_lists_rows_in_backend_order {World} (env : Env World)
    (s : Sys World) (r : Response (list Task.t)) (w : World) :
  select_tasks env (world s) = (r, w) ->
  error r = None ->
  let before := render (comp s) in
  let after := render (comp (final (fetchData env s))) in
  (forall l, data r = Some l -> l <> [] ->
     View.listing after = View.Items (map renderItem l))
  /\ (data r = None \/ data r = Some [] ->
      View.listing after = View.Placeholder (JsString.lit "No tasks yet."))
  /\ View.titleValue after = View.titleValue before
  /\ View.descValue after = View.descValue before
  /\ View.submitText after = View.submitText before
  /\ View.cancel after = View.cancel before.
Proof.
  intros Hsel Hok before after. subst before after.
  rewrite fetchData_cases, Hsel, Hok. unfold render, submitLabel. cbn.
  repeat split.
  - intros l Hl Hne. rewrite Hl. cbn. apply renderList_nonempty. exact Hne.
  - intros [Hn|Hn]; rewrite Hn; reflexivity.
Qed.

(** A stale list of one is replaced by the two rows of the table, in the
    table's order; an empty table gives the placeholder. *)
Lemma refresh_lists_rows_in_backend_order_witness :
  let s l := {| comp := Sample.form [Sample.bread] [] [] None;
                world := Sample.table l true |} in
  View.listing (render (comp (final
     (fetchData Memory.env (s [Sample.milk 5; Sample.bread])))))
  = View.Items [renderItem (Sample.milk 5); renderItem Sample.bread]
  /\ View.listing (render (comp (final (fetchData Memory.env (s [])))))
     = View.Placeholder (JsString.lit "No tasks yet.").
Proof.
  intros s. split.
  - refine (proj1 (refresh_lists_rows_in_backend_order Memory.env
                     (s [Sample.milk 5; Sample.bread]) eq_refl eq_refl)
              _ eq_refl _).
    discriminate.
  - exact (proj1 (proj2 (refresh_lists_rows_in_backend_order Memory.env
                           (s []) eq_refl eq_refl)) (or_intror eq_refl)).
Defined.

(** X12. When the fetch on mount fails, the screen is the empty form in
    create mode over the placeholder "No tasks yet.", and the failure is
    reported in one error toast. *)
Theorem failed_mount_shows_placeholder {World} (env : Env World) (w w' : World)
    (r : Response (list Task.t)) (e : PostgrestError) :
  select_tasks env w = (r, w') ->
  error r = Some e ->
  let out := onMount env {| comp := initialState; world := w |} in
  render (comp (final out))
  = {| View.titleValue := []; View.descValue := [];
       View.submitText := JsString.lit "Add Task";
       View.cancel := View.Nothing;
       View.listing := View.Placeholder (JsString.lit "No tasks yet.") |}
  /\ emitted out = [Select; Toast Error (fetchErrorPrefix ++ message e)].
Proof.
  intros Hsel He out. subst out. unfold onMount.
  rewrite fetchData_cases. cbn. rewrite Hsel, He. split; reflexivity.
Qed.

(** The table holds two rows but is down when the component mounts. *)
Lemma failed_mount_shows_placeholder_witness :
  let out := onMount Memory.env
               (Sample.mounted (Sample.down [Sample.milk 5; Sample.bread] true)) in
  View.listing (render (comp (final out)))
  = View.Placeholder (JsString.lit "No tasks yet.")
  /\ emitted out
     = [Select; Toast Error (JsString.lit "Error fetching tasks: network error")].
Proof.
  intros out.
  destruct (failed_mount_shows_placeholder Memory.env
              (Sample.down [Sample.milk 5; Sample.bread] true)
              (e := {| message := JsString.lit "network error" |})
              eq_refl eq_refl) as [H1 H2].
  split; [exact (f_equal View.listing H1) | exact H2].
Defined.

(** X13. Clicking "Edit" on a listed item with a non-zero key puts the form
    in update mode with exactly what the item shows: the inputs hold the
    item's heading and body, the button reads "Update Task", "Cancel Edit"
    is on screen, the list is unchanged and nothing is emitted. *)
Theorem click_edit_fills_form_from_item {World} (s : Sys World)
    (items : list View.Item) (n : nat) (item : View.Item) :
  View.listing (render (comp s)) = View.Items items ->
  nth_error items n = Some item ->
  View.key item <> 0%Z ->
  let out := clickEdit n s in
  render (comp (final out))
  = {| View.titleValue := View.heading item;
       View.descValue := View.body item;
       View.submitText := JsString.lit "Update Task";
       View.cancel := View.CancelEditButton;
       View.listing := View.Items items |}
  /\ editingId (comp (final out)) = Some (View.key item)
  /\ emitted out = []
  /\ world (final out) = world s.
Proof.
  intros Hl Hn Hk out. subst out.
  destruct (listed_items (comp s) n Hl Hn) as [task [Ht <-]].
  unfold clickEdit. unfold bind, getState. cbn [value final emitted app].
  rewrite Ht, handleEdit_loads_task. cbn [value final emitted comp world].
  cbn in Hk. unfold render, submitLabel, renderCancel. cbn.
  destruct (Z.eqb_spec (Task.id task) 0); [contradiction|].
  repeat split. f_equal. exact Hl.
Qed.

(** "Edit" on the second of two listed tasks. *)
Lemma click_edit_fills_form_from_item_witness :
  let s := {| comp := Sample.form [Sample.milk 5; Sample.bread] [] [] None;
              world := Sample.table [Sample.milk 5; Sample.bread] true |} in
  View.titleValue (render (comp (final (clickEdit 1 s)))) = JsString.lit "Buy bread"
  /\ editingId (comp (final (clickEdit 1 s))) = Some 6%Z.
Proof.
  intros s.
  assert (K : View.key (renderItem Sample.bread) <> 0%Z) by discriminate.
  destruct (click_edit_fills_form_from_item s 1 eq_refl eq_refl K)
    as [H1 [H2 _]].
  split; [exact (f_equal View.titleValue H1) | exact H2].
Defined.

(** X14. Clicking "Delete" on a listed item and confirming asks the backend
    to delete the row with that item's key, and no other mutation is
    issued. *)
Theorem click_delete_deletes_listed_item {World} (env : Env World)
    (s : Sys World) (items : list View.Item) (n : nat) (item : View.Item)
    (w1 : World) :
  View.listing (render (comp s)) = View.Items items ->
  nth_error items n = Some item ->
  window_confirm env confirmMessage (world s) = (true, w1) ->
  let out := clickDelete env n s in
  (exists rest,
     emitted out = Confirm confirmMessage :: Delete (View.key item) :: rest)
  /\ filter isMutation (emitted out) = [Delete (View.key item)].
Proof.
  intros Hl Hn Hc out. subst out.
  destruct (listed_items (comp s) n Hl Hn) as [task [Ht <-]].
  unfold clickDelete. unfold bind, getState. cbn [value final emitted app].
  rewrite Ht, handleDelete_cases, Hc. by_answers;
    (split; [eexists; reflexivity | reflexivity]).
Qed.

(** "Delete" on the second of two listed tasks removes row 6 and only it. *)
Lemma click_delete_deletes_listed_item_witness :
  let s := {| comp := Sample.form [Sample.milk 5; Sample.bread] [] [] None;
              world := Sample.table [Sample.milk 5; Sample.bread] true |} in
  filter isMutation (emitted (clickDelete Memory.env 1 s)) = [Delete 6]
  /\ Memory.rows (world (final (clickDelete Memory.env 1 s))) = [Sample.milk 5].
Proof.
  intros s. split; [|reflexivity].
  exact (proj2 (click_delete_deletes_listed_item Memory.env s 1
                  eq_refl eq_refl eq_refl)).
Defined.

(** ** Validation *)

Lemma trimStart_nil_iff (s : jsstring) :
  JsString.trimStart s = [] <-> forallb JsString.isTrimmed s = true.
Proof.
  induction s as [|c r IH]; cbn; [tauto|].
  destruct (JsString.isTrimmed c); cbn; [exact IH|].
  split; discriminate.
Qed.

Lemma forallb_rev {A} (f : A -> bool) (l : list A) :
  forallb f (rev l) = true -> forallb f l = true.
Proof.
  rewrite !forallb_forall. intros H x Hx. apply H. apply in_rev in Hx. exact Hx.
Qed.

(** [trim] leaves nothing exactly when every code unit is one it strips. *)
Lemma trim_nil_iff (s : jsstring) :
  JsString.trim s = [] <-> forallb JsString.isTrimmed s = true.
Proof.
  split.
  - unfold JsString.trim, JsString.trimEnd. intros H.
    apply (f_equal (@rev N)) in H. rewrite rev_involutive in H. cbn in H.
    apply trimStart_nil_iff, forallb_rev in H.
    apply trimStart_nil_iff.
    destruct (JsString.trimStart s) as [|c l] eqn:E; [reflexivity|].
    apply trimStart_head in E. cbn in H. rewrite E in H. discriminate H.
  - intros H. apply trimStart_nil_iff in H.
    unfold JsString.trim. rewrite H. reflexivity.
Qed.

(** X15. A submit goes without any remote call exactly when the title or the
    description is empty or made only of white space and line terminators;
    a draft with one other code unit in each field always reaches the
    backend. *)
Theorem submit_silent_iff_whitespace_only {World} (env : Env World)
    (s : Sys World) :
  filter isRemote (emitted (handleSubmit env s)) = []
  <-> forallb JsString.isTrimmed (NewTask.title (newTask (comp s))) = true
      \/ forallb JsString.isTrimmed (NewTask.desc (newTask (comp s))) = true.
Proof.
  rewrite <- !trim_nil_iff, <- blank_true_iff, handleSubmit_cases.
  split.
  - by_answers; intros H; first [reflexivity | discriminate H].
  - intros H. rewrite H. reflexivity.
Qed.

(** A description of a no-break space and a line feed stops the submit; a
    single letter lets it through. *)
Lemma submit_silent_iff_whitespace_only_witness :
  filter isRemote (emitted (handleSubmit Memory.env
     {| comp := Sample.form [] (JsString.lit "Buy milk") [0xA0; 0x0A]%N None;
        world := Sample.table [] true |})) = []
  /\ forallb JsString.isTrimmed (JsString.lit "x") = false.
Proof.
  split; [|reflexivity].
  apply (proj2 (submit_silent_iff_whitespace_only Memory.env
     {| comp := Sample.form [] (JsString.lit "Buy milk") [0xA0; 0x0A]%N None;
        world := Sample.table [] true |})).
  right. reflexivity.
Defined.

(** ** Switching the edit target *)

(** X16. Clicking "Edit" on another task while one is being edited replaces
    the draft without asking and without any call: whatever had been loaded
    and typed is gone, and the component is as if only the second "Edit" had
    been clicked. *)
Theorem edit_other_task_replaces_draft {World} (a b : Task.t)
    (keys : list Key) (s : Sys World) :
  let out := (handleEdit a ;; typing keys ;; handleEdit b) s in
  final out = final (handleEdit b s)
  /\ emitted out = []
  /\ newTask (comp (final out))
     = {| NewTask.title := Task.title b; NewTask.desc := Task.desc b |}
  /\ editingId (comp (final out)) = Some (Task.id b).
Proof.
  intros out. subst out.
  unfold bind at 1 2 3 4. cbn [final value emitted].
  rewrite !handleEdit_loads_task. cbn [final value emitted app].
  match goal with
  | |- context [typing keys ?s1] =>
      destruct (typing_frame keys s1) as [E [W [T _]]]
  end.
  rewrite E, W, T. repeat split; reflexivity.
Qed.
